(** * cubes.backends.sql.functions: the aggregate-function registry

    A shallow embedding of [cubes/backends/sql/functions.py]: the
    [AggregateFunction] class hierarchy with its two coalescing hooks,
    the literal tuple [_functions], and the lazily filled module-level
    dictionary [_function_dict] behind [get_aggregate_function] and
    [available_aggregate_functions].

    Python objects become records, exceptions become the [Raise] branch
    of an error monad, the module-level dictionary becomes a [gmap]
    threaded through the two public functions. *)

From stdpp Require Import gmap strings list fin_maps.

Local Open Scope string_scope.
Set Warnings "-register-all".

(** ** Exceptions *)

(** Modelled from the spec: the exception classes of the package's
    [errors] module, which this file imports with
    [from ...errors import *] and which is not part of the sources at
    hand.  [InternalError] and [ModelError] are the two names the code
    raises; [ConfigurationError] is the class the specification's error
    taxonomy names for a missing collaborator.  The three are distinct
    classes.  [KeyError], [AttributeError] and [TypeError] are Python's
    own, raised by a failed dictionary lookup, an attribute access on
    [None] and a call with the wrong number of arguments;
    [CollaboratorError] stands for whatever the browser context raises
    when it cannot resolve a measure or a column. *)
Inductive exn_class : Set :=
| InternalError
| ModelError
| ConfigurationError
| KeyError
| AttributeError
| TypeError
| CollaboratorError.

Record exn : Set := Exn { exn_cls : exn_class; exn_msg : string }.

Inductive result (A : Type) : Type :=
| Ok (a : A)
| Raise (e : exn).
Arguments Ok {A} a.
Arguments Raise {A} e.

#[global] Instance result_ret : MRet result := λ A, @Ok A.
#[global] Instance result_bind : MBind result := λ A B k r,
  match r with
  | Ok a => k a
  | Raise e => Raise e
  end.

Definition raises {A} (r : result A) (c : exn_class) : Prop :=
  ∃ msg, r = Raise (Exn c msg).

Definition succeeds {A} (r : result A) : Prop := ∃ a, r = Ok a.

(** ** SQL expressions and the callables stored in the appliers *)

(** The callables that appear as [function_] in [_functions], plus
    [sql.functions.coalesce] used by the two coalescing hooks. *)
Inductive pyfunc : Set :=
| sql_functions_sum
| sql_functions_count
| sql_functions_min
| sql_functions_max
| sql_functions_coalesce
| avg
| stddev
| variance
| lambda_c_c.

(** Expression objects of the SQL layer, kept as syntax trees: a call of
    one of the builders keeps its positional and keyword arguments as
    they were passed. *)
Inductive expr : Set :=
| EColumn (col : string)
| EInt (n : Z)
| ECall (f : pyfunc) (positional : list expr) (keyword : list (string * expr))
| ELabel (e : expr) (label : string).

(** Calling a stored callable.  The builders of the SQL layer construct
    a node; [lambda c: c] returns its one positional argument and
    rejects any other arity. *)
Definition pycall (f : pyfunc) (positional : list expr)
    (keyword : list (string * expr)) : result expr :=
  match f with
  | lambda_c_c =>
      match positional, keyword with
      | [c], [] => Ok c
      | _, _ => Raise (Exn TypeError "<lambda>() takes exactly 1 argument")
      end
  | _ => Ok (ECall f positional keyword)
  end.

(** [expression.label(name)] *)
Definition label (expression : expr) (name : string) : expr :=
  ELabel expression name.

(** ** Collaborators: the aggregate specification and the browser context *)

Inductive Measure : Set := MkMeasure (ref : string).

(** [aggregate.name], [aggregate.measure] and [str(aggregate)]. *)
Record Aggregate : Set := {
  aggregate_name : string;
  aggregate_measure : option string;
  aggregate_str : string
}.

(** [context.cube.measure(ref)] and [context.column(measure)]. *)
Record Context : Type := {
  cube_measure : string → result Measure;
  column : Measure → result expr
}.

(** Python truth value of [aggregate.measure]: [None] and the empty
    string are false. *)
Definition measure_truth (m : option string) : option string :=
  match m with
  | Some "" => None
  | other => other
  end.

(** ** The class hierarchy *)

Inductive pyclass : Set :=
| C_AggregateFunction
| C_ValueCoalescingFunction
| C_SummaryCoalescingFunction
| C_GenerativeFunction.

Record AggregateFunction : Set := {
  cls : pyclass;
  name : string;
  function : pyfunc;
  args : list expr;
  kwargs : list (string * expr)
}.

(** The two class attributes are set once, in [AggregateFunction]; no
    subclass overrides either of them. *)
Definition requires_measure (self : AggregateFunction) : bool := true.
Definition coalesce_values (self : AggregateFunction) : bool := true.

(** [AggregateFunction.__init__] *)
Definition AggregateFunction__init__ (c : pyclass) (name_ : string)
    (function_ : pyfunc) (args_ : list expr) (kwargs_ : list (string * expr))
    : AggregateFunction :=
  {| cls := c; name := name_; function := function_;
     args := args_; kwargs := kwargs_ |}.

Definition ValueCoalescingFunction :=
  AggregateFunction__init__ C_ValueCoalescingFunction.

Definition SummaryCoalescingFunction :=
  AggregateFunction__init__ C_SummaryCoalescingFunction.

(** [GenerativeFunction.__init__] accepts [*args, **kwargs] and calls
    [super().__init__(name, function)] without them. *)
Definition GenerativeFunction (name_ : string) (function_ : pyfunc)
    (args_ : list expr) (kwargs_ : list (string * expr)) : AggregateFunction :=
  AggregateFunction__init__ C_GenerativeFunction name_ function_ [] [].

(** [coalesce_value]: overridden by [ValueCoalescingFunction]. *)
Definition coalesce_value (self : AggregateFunction) (aggregate : Aggregate)
    (value : expr) : result expr :=
  match cls self with
  | C_ValueCoalescingFunction => pycall sql_functions_coalesce [value; EInt 0] []
  | _ => Ok value
  end.

(** [coalesce_aggregate]: overridden by [SummaryCoalescingFunction]. *)
Definition coalesce_aggregate (self : AggregateFunction) (aggregate : Aggregate)
    (value : expr) : result expr :=
  match cls self with
  | C_SummaryCoalescingFunction => pycall sql_functions_coalesce [value; EInt 0] []
  | _ => Ok value
  end.

Definition no_measure_message (aggregate : Aggregate) (self : AggregateFunction)
    : string :=
  "No measure specified for aggregate " +:+ aggregate_str aggregate +:+
  ", required for aggregate function " +:+ name self.

(** [AggregateFunction.apply].  The local variable [column] is rebound
    twice, the second time to the result of [coalesce_aggregate]; the
    value returned is [expression]. *)
Definition AggregateFunction_apply (self : AggregateFunction)
    (aggregate : option Aggregate) (context : option Context)
    (coalesce : bool) : result expr :=
  match context with
  | None => Raise (Exn InternalError "No context provided for AggregationFunction")
  | Some ctx =>
      match aggregate with
      | None => Raise (Exn AttributeError "'NoneType' object has no attribute 'measure'")
      | Some agg =>
          match measure_truth (aggregate_measure agg) with
          | None => Raise (Exn ModelError (no_measure_message agg self))
          | Some ref =>
              measure ← cube_measure ctx ref;
              column0 ← column ctx measure;
              column1 ← (if coalesce then coalesce_value self agg column0
                         else Ok column0);
              expression ← pycall (function self) (column1 :: args self) (kwargs self);
              column2 ← (if coalesce then coalesce_aggregate self agg expression
                         else Ok column1);
              Ok expression
          end
      end
  end.

(** [GenerativeFunction.apply] *)
Definition GenerativeFunction_apply (self : AggregateFunction)
    (aggregate : option Aggregate) (context : option Context)
    (missing_value : bool) : result expr :=
  pycall (function self) (args self) (kwargs self).

(** Method resolution for [self.apply]. *)
Definition apply (self : AggregateFunction) (aggregate : option Aggregate)
    (context : option Context) (coalesce : bool) : result expr :=
  match cls self with
  | C_GenerativeFunction => GenerativeFunction_apply self aggregate context coalesce
  | _ => AggregateFunction_apply self aggregate context coalesce
  end.

(** [AggregateFunction.__call__] *)
Definition __call__ (self : AggregateFunction) (aggregate : option Aggregate)
    (context : option Context) (coalesce : bool) : result expr :=
  expression ← apply self aggregate context coalesce;
  match aggregate with
  | None => Raise (Exn AttributeError "'NoneType' object has no attribute 'name'")
  | Some agg => Ok (label expression (aggregate_name agg))
  end.

(** The three objects a call receives.  Python passes them by
    reference, so a method could hand them back changed; attributes are
    assigned in [__init__] only, and [__call__], [apply] and the two
    hooks read attributes and rebind local variables. *)
Record Frame : Type := {
  frame_self : AggregateFunction;
  frame_aggregate : option Aggregate;
  frame_context : option Context
}.

(** [__call__] on a frame: what it returns or raises, and the three
    objects as the call leaves them. *)
Definition __call___in (fr : Frame) (coalesce : bool) : result expr * Frame :=
  (__call__ (frame_self fr) (frame_aggregate fr) (frame_context fr) coalesce,
   fr).

(** ** The registry *)

Definition _functions : list AggregateFunction :=
  [ SummaryCoalescingFunction "sum" sql_functions_sum [] [];
    SummaryCoalescingFunction "count_nonempty" sql_functions_count [] [];
    ValueCoalescingFunction "min" sql_functions_min [] [];
    ValueCoalescingFunction "max" sql_functions_max [] [];
    ValueCoalescingFunction "avg" avg [] [];
    ValueCoalescingFunction "stddev" stddev [] [];
    ValueCoalescingFunction "variance" variance [] [];
    ValueCoalescingFunction "identity" lambda_c_c [] [];
    GenerativeFunction "count" sql_functions_count [EInt 1] [] ].

(** [_function_dict = {}] at import time. *)
Definition _function_dict : gmap string AggregateFunction := ∅.

(** [_create_function_dict]: [not _function_dict] is true of the empty
    dictionary only. *)
Definition _create_function_dict (d : gmap string AggregateFunction)
    : gmap string AggregateFunction :=
  if bool_decide (size d = 0)
  then foldl (λ acc func, <[name func := func]> acc) d _functions
  else d.

(** [get_aggregate_function]: the value returned or the exception
    raised, and the dictionary the call leaves behind. *)
Definition get_aggregate_function (name_ : string)
    (d : gmap string AggregateFunction)
    : result AggregateFunction * gmap string AggregateFunction :=
  let d' := _create_function_dict d in
  (match d' !! name_ with
   | Some func => Ok func
   | None => Raise (Exn KeyError name_)
   end, d').

(** [available_aggregate_functions]: the keys of the dictionary. *)
Definition available_aggregate_functions (d : gmap string AggregateFunction)
    : gset string * gmap string AggregateFunction :=
  let d' := _create_function_dict d in
  (dom d', d').

(** ** The process as a sequence of calls to the two public functions *)

Inductive request : Set :=
| Get (name_ : string)
| ListAvailable.

Inductive response : Type :=
| Returned (r : result AggregateFunction)
| Names (s : gset string).

Definition step (d : gmap string AggregateFunction) (rq : request)
    : response * gmap string AggregateFunction :=
  match rq with
  | Get name_ =>
      let (r, d') := get_aggregate_function name_ d in (Returned r, d')
  | ListAvailable =>
      let (s, d') := available_aggregate_functions d in (Names s, d')
  end.

(** The responses of a sequence of calls, and the dictionary at the end. *)
Fixpoint run (d : gmap string AggregateFunction) (rqs : list request)
    : list response * gmap string AggregateFunction :=
  match rqs with
  | [] => ([], d)
  | rq :: rest =>
      let (out, d') := step d rq in
      let (outs, d'') := run d' rest in
      (out :: outs, d'')
  end.




(** The dictionaries the process can hold: those some sequence of calls
    leaves behind, starting from the empty one of import time. *)
Definition reachable (d : gmap string AggregateFunction) : Prop :=
  ∃ rqs, d = (run _function_dict rqs).2.

(** The dictionary once the loop has run. *)
Definition populated : gmap string AggregateFunction :=
  _create_function_dict _function_dict.

(** [registered n f]: a first lookup of [n] returns [f]. *)
Definition registered (n : string) (f : AggregateFunction) : Prop :=
  (get_aggregate_function n _function_dict).1 = Ok f.

(** ** Sample collaborators *)

(** A context that resolves every measure reference to the column of
    the same name. *)
Definition sample_context : Context :=
  {| cube_measure := λ ref, Ok (MkMeasure ref);
     column := λ m, match m with MkMeasure ref => Ok (EColumn ref) end |}.

Definition total_revenue : Aggregate :=
  {| aggregate_name := "total_revenue";
     aggregate_measure := Some "revenue";
     aggregate_str := "total_revenue" |}.

Definition min_price : Aggregate :=
  {| aggregate_name := "min_price";
     aggregate_measure := Some "price";
     aggregate_str := "min_price" |}.

Definition record_count : Aggregate :=
  {| aggregate_name := "record_count";
     aggregate_measure := None;
     aggregate_str := "record_count" |}.

(** NULL-to-zero coalescing of an expression, as the two overriding
    hooks build it. *)
Definition COALESCE0 (e : expr) : expr :=
  ECall sql_functions_coalesce [e; EInt 0] [].

(** A context whose cube knows no measure, and one whose cube knows
    every measure but has a column for none. *)
Definition unknown_measure_context : Context :=
  {| cube_measure := λ ref, Raise (Exn CollaboratorError ("unknown measure " +:+ ref));
     column := λ m, match m with MkMeasure ref => Ok (EColumn ref) end |}.

Definition no_column_context : Context :=
  {| cube_measure := λ ref, Ok (MkMeasure ref);
     column := λ m, match m with
                    | MkMeasure ref => Raise (Exn CollaboratorError ("no column for " +:+ ref))
                    end |}.

(** An aggregate whose measure reference is the empty string. *)
Definition blank_measure : Aggregate :=
  {| aggregate_name := "blank";
     aggregate_measure := Some "";
     aggregate_str := "blank" |}.

(** An applier of the base class itself, with one extra positional and
    one extra keyword argument for its function. *)
Definition plain_with_extras : AggregateFunction :=
  AggregateFunction__init__ C_AggregateFunction "plain" sql_functions_max
    [EInt 2] [("scale", EInt 3)].

(** A dictionary that holds one foreign entry before the first call. *)
Definition foreign_dict : gmap string AggregateFunction :=
  {[ "plain" := plain_with_extras ]}.

(** * Properties *)

(** ** The error monad *)

Lemma raises_class_unique {A} (r : result A) (c1 c2 : exn_class) :
  raises r c1 → raises r c2 → c1 = c2.
Proof. intros [m1 ->] [m2 H2]. by inversion H2. Qed.

Lemma Ok_not_raises {A} (a : A) (c : exn_class) : ¬ raises (Ok a) c.
Proof. by intros [msg Hmsg]. Qed.

(** ** The inherited [apply], once the context has resolved the column *)

Lemma measure_truth_Some (ref : string) :
  ref ≠ "" → measure_truth (Some ref) = Some ref.
Proof. by destruct ref. Qed.

Section Resolved.
Variables (agg : Aggregate) (ctx : Context).
Variables (ref : string) (m : Measure) (col : expr).
Hypothesis Hcarries : aggregate_measure agg = Some ref.
Hypothesis Hnonempty : ref ≠ "".
Hypothesis Hmeasure : cube_measure ctx ref = Ok m.
Hypothesis Hcolumn : column ctx m = Ok col.

Lemma AggregateFunction_apply_resolved (self : AggregateFunction) (c : bool) :
  AggregateFunction_apply self (Some agg) (Some ctx) c =
    column1 ← (if c then coalesce_value self agg col else Ok col);
    expression ← pycall (function self) (column1 :: args self) (kwargs self);
    _ ← (if c then coalesce_aggregate self agg expression else Ok column1);
    Ok expression.
Proof using All.
  unfold AggregateFunction_apply.
  rewrite Hcarries, measure_truth_Some by done.
  rewrite Hmeasure; simpl. by rewrite Hcolumn.
Qed.

(** A [ValueCoalescingFunction] hands the coalesced column to its
    function when asked to, and returns what the function built. *)
Lemma ValueCoalescing_apply (self : AggregateFunction) (c : bool) :
  cls self = C_ValueCoalescingFunction →
  apply self (Some agg) (Some ctx) c =
    pycall (function self)
           ((if c then COALESCE0 col else col) :: args self) (kwargs self).
Proof using All.
  intros Hcls. unfold apply. rewrite Hcls.
  rewrite AggregateFunction_apply_resolved.
  unfold coalesce_value, coalesce_aggregate. rewrite Hcls.
  destruct c; simpl;
    by destruct (pycall (function self) _ (kwargs self)).
Qed.

(** A [SummaryCoalescingFunction] returns what its function built from
    the raw column, whatever the flag: the coalesced aggregate is
    bound to [column] and dropped. *)
Lemma SummaryCoalescing_apply (self : AggregateFunction) (c : bool) :
  cls self = C_SummaryCoalescingFunction →
  apply self (Some agg) (Some ctx) c =
    pycall (function self) (col :: args self) (kwargs self).
Proof using All.
  intros Hcls. unfold apply. rewrite Hcls.
  rewrite AggregateFunction_apply_resolved.
  unfold coalesce_value, coalesce_aggregate. rewrite Hcls.
  destruct c; simpl;
    by destruct (pycall (function self) _ (kwargs self)).
Qed.
End Resolved.

Lemma sample_context_resolves (ref : string) :
  cube_measure sample_context ref = Ok (MkMeasure ref) ∧
  column sample_context (MkMeasure ref) = Ok (EColumn ref).
Proof. done. Qed.

(** ** What the nine names are bound to *)

Ltac registered_inv H :=
  unfold registered in H; vm_compute in H; injection H as <-.

Lemma registered_sum f :
  registered "sum" f ↔ f = SummaryCoalescingFunction "sum" sql_functions_sum [] [].
Proof. split; [intros H; by registered_inv H | by intros ->]. Qed.

Lemma registered_identity f :
  registered "identity" f ↔ f = ValueCoalescingFunction "identity" lambda_c_c [] [].
Proof. split; [intros H; by registered_inv H | by intros ->]. Qed.

Lemma registered_count f :
  registered "count" f ↔
  f = AggregateFunction__init__ C_GenerativeFunction "count" sql_functions_count [] [].
Proof. split; [intros H; by registered_inv H | by intros ->]. Qed.

(** ** Coalescing *)

(** C1, as the code behaves at [sum] with [coalesce = True]: the applier
    registered as 'sum' is a [SummaryCoalescingFunction], and for the
    aggregate [total_revenue] over measure [revenue] its [apply] returns
    the bare [SUM(revenue)]; the expression [COALESCE(SUM(revenue), 0)]
    that the claim describes is not what comes back. *)
Theorem sum_coalesce_returns_bare_aggregate :
  ∃ f, registered "sum" f ∧ cls f = C_SummaryCoalescingFunction ∧
    apply f (Some total_revenue) (Some sample_context) true =
      Ok (ECall sql_functions_sum [EColumn "revenue"] []) ∧
    apply f (Some total_revenue) (Some sample_context) true ≠
      Ok (COALESCE0 (ECall sql_functions_sum [EColumn "revenue"] [])).
Proof.
  eexists. split; [by apply registered_sum |]. by repeat split.
Qed.

(** C2, as the code behaves at [count]: the applier registered as
    'count' succeeds for every aggregate, context and flag, null or not,
    and never coalesces, but the expression it returns is its function
    called with no argument at all, not with the literal 1 of the
    registration. *)
Theorem count_apply_calls_function_without_arguments :
  ∃ f, registered "count" f ∧ cls f = C_GenerativeFunction ∧
    ∀ aggregate context coalesce,
      apply f aggregate context coalesce = Ok (ECall sql_functions_count [] []) ∧
      apply f aggregate context coalesce ≠
        pycall (function f) [EInt 1] [].
Proof.
  eexists. split; [by apply registered_count |]. split; [done |].
  intros aggregate context coalesce. by split.
Qed.

(** C3 fails as stated: the applier registered as 'identity' is a
    [ValueCoalescingFunction], and with [coalesce = True] its [apply]
    returns [COALESCE(revenue, 0)], which is not its function applied to
    the raw column. *)
Lemma identity_coalesces_when_asked :
  ∃ f, registered "identity" f ∧ cls f = C_ValueCoalescingFunction ∧
    apply f (Some total_revenue) (Some sample_context) true =
      Ok (COALESCE0 (EColumn "revenue")) ∧
    apply f (Some total_revenue) (Some sample_context) true ≠
      pycall (function f) [EColumn "revenue"] [].
Proof.
  eexists. split; [by apply registered_identity |]. by repeat split.
Qed.

(** C3, amended: the applier registered as 'identity' is a
    value-coalescing applier whose function returns its argument.  For
    every aggregate carrying a measure and every context that resolves
    it, [apply] returns the raw resolved column when [coalesce] is
    false and that column wrapped in [COALESCE(., 0)] when it is true. *)
Theorem identity_apply (f : AggregateFunction) (agg : Aggregate) (ctx : Context)
    (ref : string) (m : Measure) (col : expr) (coalesce : bool) :
  registered "identity" f →
  aggregate_measure agg = Some ref → ref ≠ "" →
  cube_measure ctx ref = Ok m → column ctx m = Ok col →
  cls f = C_ValueCoalescingFunction ∧
  apply f (Some agg) (Some ctx) coalesce =
    Ok (if coalesce then COALESCE0 col else col).
Proof.
  intros ->%registered_identity Hagg Hne Hm Hcol. split; [done |].
  by rewrite (ValueCoalescing_apply agg ctx ref m col).
Qed.

Lemma identity_apply_witness :
  apply (ValueCoalescingFunction "identity" lambda_c_c [] [])
        (Some total_revenue) (Some sample_context) true =
    Ok (COALESCE0 (EColumn "revenue")) ∧
  apply (ValueCoalescingFunction "identity" lambda_c_c [] [])
        (Some total_revenue) (Some sample_context) false =
    Ok (EColumn "revenue").
Proof.
  split.
  - apply (identity_apply _ total_revenue sample_context "revenue"
             (MkMeasure "revenue") (EColumn "revenue") true);
      [vm_compute; reflexivity | reflexivity | discriminate
      | reflexivity | reflexivity].
  - apply (identity_apply _ total_revenue sample_context "revenue"
             (MkMeasure "revenue") (EColumn "revenue") false);
      [vm_compute; reflexivity | reflexivity | discriminate
      | reflexivity | reflexivity].
Defined.

(** C6: for the appliers registered as 'min', 'max', 'avg', 'stddev' and
    'variance', with a context that resolves the aggregate's measure to
    a column, the argument handed to the underlying function is
    [COALESCE(column, 0)] when [coalesce] is true and the raw column
    when it is false, and what the function returns comes back as it
    is, with no coalescing around it. *)
Theorem value_coalescing_apply (n : string) (f : AggregateFunction)
    (agg : Aggregate) (ctx : Context) (ref : string) (m : Measure)
    (col : expr) (coalesce : bool) :
  n ∈ ["min"; "max"; "avg"; "stddev"; "variance"] →
  registered n f →
  aggregate_measure agg = Some ref → ref ≠ "" →
  cube_measure ctx ref = Ok m → column ctx m = Ok col →
  cls f = C_ValueCoalescingFunction ∧
  function f ≠ sql_functions_coalesce ∧
  apply f (Some agg) (Some ctx) coalesce =
    pycall (function f) [if coalesce then COALESCE0 col else col] [] ∧
  apply f (Some agg) (Some ctx) coalesce =
    Ok (ECall (function f) [if coalesce then COALESCE0 col else col] []).
Proof.
  intros Hn Hreg Hagg Hne Hm Hcol.
  assert (cls f = C_ValueCoalescingFunction ∧ args f = [] ∧ kwargs f = [] ∧
          function f ≠ sql_functions_coalesce ∧ function f ≠ lambda_c_c)
    as (Hcls & Hargs & Hkw & Hfun & Hlam).
  { repeat (apply elem_of_cons in Hn as [-> | Hn]);
      [registered_inv Hreg; by repeat split ..|by apply elem_of_nil in Hn]. }
  rewrite (ValueCoalescing_apply agg ctx ref m col) by done.
  rewrite Hargs, Hkw. repeat split; [done ..|].
  by destruct (function f).
Qed.

Lemma value_coalescing_apply_witness :
  apply (ValueCoalescingFunction "min" sql_functions_min [] [])
        (Some min_price) (Some sample_context) true =
    Ok (ECall sql_functions_min [COALESCE0 (EColumn "price")] []).
Proof.
  destruct (value_coalescing_apply "min"
              (ValueCoalescingFunction "min" sql_functions_min [] [])
              min_price sample_context "price"
              (MkMeasure "price") (EColumn "price") true)
    as (_ & _ & _ & Hresult);
    [ apply list_elem_of_here | vm_compute; reflexivity | reflexivity
    | discriminate | reflexivity | reflexivity | exact Hresult ].
Defined.

(** ** Errors of the inherited [apply] *)

(** Every class but [GenerativeFunction] resolves [apply] to the method
    of [AggregateFunction]. *)
Lemma apply_inherited (f : AggregateFunction) aggregate context coalesce :
  cls f ≠ C_GenerativeFunction →
  apply f aggregate context coalesce =
    AggregateFunction_apply f aggregate context coalesce.
Proof. unfold apply. by destruct (cls f). Qed.

(** Of the registered appliers, only 'count' overrides [apply]. *)
Lemma inherits_apply_unless_count (f : AggregateFunction) :
  f ∈ _functions → name f ≠ "count" → cls f ≠ C_GenerativeFunction.
Proof.
  intros Hin Hname. unfold _functions in Hin.
  repeat (apply elem_of_cons in Hin as [-> | Hin]); try done.
  by apply elem_of_nil in Hin.
Qed.

(** C4 fails as stated, twice over.  With no context the applier
    registered as 'sum' raises [InternalError], not
    [ConfigurationError]; and the applier registered as 'count', whose
    [requires_measure] is the inherited [True], raises nothing at all. *)
Lemma missing_context_raises_InternalError :
  (∃ f, registered "sum" f ∧ requires_measure f = true ∧
     apply f (Some total_revenue) None false =
       Raise (Exn InternalError "No context provided for AggregationFunction") ∧
     ¬ raises (apply f (Some total_revenue) None false) ConfigurationError) ∧
  (∃ g, registered "count" g ∧ requires_measure g = true ∧
     succeeds (apply g (Some total_revenue) None false)).
Proof.
  split.
  - eexists. split; [by apply registered_sum |]. repeat split.
    intros [msg Hmsg]. discriminate Hmsg.
  - eexists. split; [by apply registered_count |]. split; [done |].
    by eexists.
Qed.

(** C4, amended: every applier that inherits [AggregateFunction.apply]
    (every class but [GenerativeFunction], so every registered applier
    but 'count') raises [InternalError] with the message "No context
    provided for AggregationFunction" when called without a context,
    for every aggregate, null or not, and either value of the flag. *)
Theorem apply_without_context (f : AggregateFunction)
    (aggregate : option Aggregate) (coalesce : bool) :
  cls f ≠ C_GenerativeFunction →
  apply f aggregate None coalesce =
    Raise (Exn InternalError "No context provided for AggregationFunction").
Proof. intros Hcls. by rewrite apply_inherited. Qed.

Lemma apply_without_context_witness :
  apply (SummaryCoalescingFunction "sum" sql_functions_sum [] [])
        (Some total_revenue) None true =
    Raise (Exn InternalError "No context provided for AggregationFunction").
Proof. apply apply_without_context. simpl. discriminate. Defined.

(** C5: every applier that requires a measure, that is, every applier
    but the generative one: in the code, every class that inherits
    [AggregateFunction.apply], which is every class but
    [GenerativeFunction].  Called with a context and an aggregate whose
    measure is absent, it raises [ModelError]; the message names the
    aggregate and the function, and the flag makes no difference. *)
Theorem apply_without_measure (f : AggregateFunction) (agg : Aggregate)
    (ctx : Context) (coalesce : bool) :
  cls f ≠ C_GenerativeFunction →
  aggregate_measure agg = None →
  apply f (Some agg) (Some ctx) coalesce =
    Raise (Exn ModelError
             ("No measure specified for aggregate " +:+ aggregate_str agg +:+
              ", required for aggregate function " +:+ name f)).
Proof.
  intros Hcls Hagg. rewrite apply_inherited by done.
  unfold AggregateFunction_apply. by rewrite Hagg.
Qed.

Lemma apply_without_measure_witness :
  apply (ValueCoalescingFunction "max" sql_functions_max [] [])
        (Some record_count) (Some sample_context) true =
    Raise (Exn ModelError
             "No measure specified for aggregate record_count, required for aggregate function max").
Proof.
  refine (apply_without_measure
            (ValueCoalescingFunction "max" sql_functions_max [] [])
            record_count sample_context true _ _);
    [simpl; discriminate | reflexivity].
Defined.

(** C10: for every applier that requires a measure, that is, every
    applier but the generative one (in the code, every class that
    inherits [AggregateFunction.apply]), when both the context and the
    aggregate's measure are missing the error raised is the
    missing-context one and not [ModelError], although the same
    aggregate with a context present does raise [ModelError]: the
    context is checked first. *)
Theorem context_checked_before_measure (f : AggregateFunction)
    (agg : Aggregate) (coalesce : bool) :
  cls f ≠ C_GenerativeFunction →
  aggregate_measure agg = None →
  raises (apply f (Some agg) None coalesce) InternalError ∧
  ¬ raises (apply f (Some agg) None coalesce) ModelError ∧
  ∀ ctx, raises (apply f (Some agg) (Some ctx) coalesce) ModelError.
Proof.
  intros Hcls Hagg. rewrite apply_inherited by done.
  split; [by eexists |]. split.
  - intros [msg Hmsg]. discriminate Hmsg.
  - intros ctx. rewrite apply_inherited by done.
    unfold AggregateFunction_apply. rewrite Hagg. by eexists.
Qed.

Lemma context_checked_before_measure_witness :
  raises (apply (ValueCoalescingFunction "avg" avg [] [])
                (Some record_count) None false) InternalError.
Proof.
  apply (context_checked_before_measure _ record_count false);
    [simpl; discriminate | reflexivity].
Defined.

(** ** The public entry point *)

Lemma call_propagates (f : AggregateFunction) aggregate context coalesce e :
  apply f aggregate context coalesce = Raise e →
  __call__ f aggregate context coalesce = Raise e.
Proof. unfold __call__. by intros ->. Qed.

(** Without an aggregate there is no name to label with: the lookup of
    [aggregate.name] fails after [apply] has returned. *)
Lemma call_without_aggregate (f : AggregateFunction) context coalesce e :
  apply f None context coalesce = Ok e →
  raises (__call__ f None context coalesce) AttributeError.
Proof. unfold __call__. intros ->. by eexists. Qed.

(** C7 fails as stated: for the applier registered as 'count', [apply]
    succeeds with no aggregate and no context, yet the call entry point
    returns nothing: reading [aggregate.name] raises [AttributeError]. *)
Lemma call_fails_where_apply_succeeds :
  ∃ f, registered "count" f ∧
    succeeds (apply f None None false) ∧
    __call__ f None None false =
      Raise (Exn AttributeError "'NoneType' object has no attribute 'name'") ∧
    ¬ succeeds (__call__ f None None false).
Proof.
  eexists. split; [by apply registered_count |]. split; [by eexists |].
  split; [done |]. intros [e He]. discriminate He.
Qed.

(** C7, amended: for every applier, of whichever class, whenever
    [apply] succeeds on an aggregate object, the call entry point
    returns exactly that result with the label [aggregate.name]
    attached and nothing else done to it, and it hands back the
    applier, the aggregate and the context as it received them. *)
Theorem call_labels_apply_result (f : AggregateFunction) (agg : Aggregate)
    (context : option Context) (coalesce : bool) (expression : expr) :
  apply f (Some agg) context coalesce = Ok expression →
  __call__ f (Some agg) context coalesce =
    Ok (ELabel expression (aggregate_name agg)) ∧
  __call___in {| frame_self := f; frame_aggregate := Some agg;
                 frame_context := context |} coalesce =
    (Ok (ELabel expression (aggregate_name agg)),
     {| frame_self := f; frame_aggregate := Some agg;
        frame_context := context |}).
Proof.
  intros Happly. unfold __call___in, __call__; simpl. by rewrite Happly.
Qed.

Lemma call_labels_apply_result_witness :
  __call__ (ValueCoalescingFunction "min" sql_functions_min [] [])
           (Some min_price) (Some sample_context) true =
    Ok (ELabel (ECall sql_functions_min [COALESCE0 (EColumn "price")] [])
               "min_price").
Proof.
  refine (proj1 (call_labels_apply_result
                   (ValueCoalescingFunction "min" sql_functions_min [] [])
                   min_price (Some sample_context) true _ _)).
  reflexivity.
Defined.

(** ** Filling the dictionary *)

Section Fill.
Implicit Types (d : gmap string AggregateFunction) (l : list AggregateFunction).

Local Abbreviation fill := (foldl (λ acc func, <[name func := func]> acc)).

Lemma fill_dom l d : dom (fill d l) = dom d ∪ list_to_set (name <$> l).
Proof.
  revert d. induction l as [| func l IH]; intros d; simpl.
  - by rewrite (right_id_L ∅ (∪)).
  - rewrite IH, dom_insert_L.
    by rewrite (comm_L (∪) {[name func]} (dom d)), (assoc_L (∪)).
Qed.

Lemma fill_lookup_Some l d n f :
  fill d l !! n = Some f → d !! n = Some f ∨ (f ∈ l ∧ name f = n).
Proof.
  revert d. induction l as [| func l IH]; intros d; simpl.
  - by left.
  - intros [Hd | [Hin Hname]]%IH.
    + apply lookup_insert_Some in Hd as [[<- <-] | [_ Hd]].
      * right. split; [apply list_elem_of_here | done].
      * by left.
    + right. split; [by apply list_elem_of_further | done].
Qed.
End Fill.

Lemma create_empty : _create_function_dict ∅ = populated.
Proof. reflexivity. Qed.

Lemma create_initial : _create_function_dict _function_dict = populated.
Proof. reflexivity. Qed.

Lemma populated_size : size populated = 9.
Proof. vm_compute. reflexivity. Qed.

Lemma create_populated : _create_function_dict populated = populated.
Proof.
  unfold _create_function_dict at 1.
  rewrite populated_size. by rewrite bool_decide_eq_false_2.
Qed.

Lemma populated_dom :
  dom populated = list_to_set (name <$> _functions).
Proof.
  unfold populated, _create_function_dict, _function_dict.
  rewrite map_size_empty, bool_decide_eq_true_2 by done.
  by rewrite fill_dom, dom_empty_L, (left_id_L ∅ (∪)).
Qed.

Lemma populated_lookup_Some (n : string) (f : AggregateFunction) :
  populated !! n = Some f → f ∈ _functions ∧ name f = n.
Proof.
  unfold populated, _create_function_dict, _function_dict.
  rewrite map_size_empty, bool_decide_eq_true_2 by done.
  intros [Hempty | Hin]%fill_lookup_Some; [| done].
  by rewrite lookup_empty in Hempty.
Qed.

(** A second run of [_create_function_dict] changes nothing, from any
    dictionary. *)
Lemma create_idempotent (d : gmap string AggregateFunction) :
  _create_function_dict (_create_function_dict d) = _create_function_dict d.
Proof.
  unfold _create_function_dict at 2. case_bool_decide as Hsize.
  - apply map_size_empty_iff in Hsize as ->. apply create_populated.
  - unfold _create_function_dict. by rewrite bool_decide_eq_false_2.
Qed.

(** ** Sequences of calls *)

Lemma step_state (d : gmap string AggregateFunction) (rq : request) :
  (step d rq).2 = _create_function_dict d.
Proof. by destruct rq. Qed.

Lemma run_cons (d : gmap string AggregateFunction) rq rest :
  run d (rq :: rest) =
    ((step d rq).1 :: (run (step d rq).2 rest).1, (run (step d rq).2 rest).2).
Proof. simpl. destruct (step d rq). simpl. by destruct (run _ rest). Qed.

Lemma run_state_populated (rqs : list request) :
  (run populated rqs).2 = populated.
Proof.
  induction rqs as [| rq rest IH]; [done |].
  by rewrite run_cons, step_state, create_populated.
Qed.

Lemma reachable_cases (d : gmap string AggregateFunction) :
  reachable d → d = ∅ ∨ d = populated.
Proof.
  intros [[| rq rest] ->]; [by left | right].
  by rewrite run_cons, step_state, create_initial, run_state_populated.
Qed.

Lemma create_reachable (d : gmap string AggregateFunction) :
  reachable d → _create_function_dict d = populated.
Proof.
  intros [-> | ->]%reachable_cases; [apply create_empty | apply create_populated].
Qed.

Lemma reachable_initial : reachable _function_dict.
Proof. by exists []. Qed.

(** What a first lookup returns is one of the literal appliers, and of
    those only 'count' does not inherit [apply]. *)
Lemma registered_in_functions (n : string) (f : AggregateFunction) :
  registered n f → f ∈ _functions ∧ name f = n.
Proof.
  unfold registered, get_aggregate_function; simpl. rewrite create_initial.
  destruct (populated !! n) as [g |] eqn:Hg; [| done].
  intros [= <-]. by apply populated_lookup_Some.
Qed.

Lemma registered_inherits_apply (n : string) (f : AggregateFunction) :
  registered n f → n ≠ "count" → cls f ≠ C_GenerativeFunction.
Proof.
  intros [Hin <-]%registered_in_functions Hn.
  by apply inherits_apply_unless_count.
Qed.








(** ** The registry *)

(** C8: in every dictionary the process can hold, each of the nine
    built-in names looks up an applier whose [name] is the name asked
    for, every other name raises [KeyError], and the listing is exactly
    the set of the nine names. *)
Theorem registry_holds_the_nine_names (d : gmap string AggregateFunction) :
  reachable d →
  (∀ n, n ∈ ["sum"; "count_nonempty"; "min"; "max"; "avg"; "stddev";
              "variance"; "identity"; "count"] →
     ∃ f, (get_aggregate_function n d).1 = Ok f ∧ name f = n) ∧
  (∀ n, n ∉ ["sum"; "count_nonempty"; "min"; "max"; "avg"; "stddev";
              "variance"; "identity"; "count"] →
     (get_aggregate_function n d).1 = Raise (Exn KeyError n)) ∧
  (available_aggregate_functions d).1 =
    list_to_set ["sum"; "count_nonempty"; "min"; "max"; "avg"; "stddev";
                 "variance"; "identity"; "count"].
Proof.
  intros Hd%create_reachable.
  unfold get_aggregate_function, available_aggregate_functions; simpl.
  rewrite Hd. split; [| split].
  - intros n Hn.
    assert (n ∈ dom populated) as [f Hf]%elem_of_dom.
    { rewrite populated_dom. by apply elem_of_list_to_set. }
    rewrite Hf. exists f. split; [done |].
    by apply populated_lookup_Some in Hf as [_ Hname].
  - intros n Hn.
    assert (populated !! n = None) as ->; [| done].
    apply not_elem_of_dom. rewrite populated_dom.
    by rewrite elem_of_list_to_set.
  - apply populated_dom.
Qed.

Lemma registry_holds_the_nine_names_witness :
  (available_aggregate_functions _function_dict).1 =
    list_to_set ["sum"; "count_nonempty"; "min"; "max"; "avg"; "stddev";
                 "variance"; "identity"; "count"].
Proof.
  destruct (registry_holds_the_nine_names _function_dict) as (_ & _ & Hnames);
    [exists []; reflexivity | exact Hnames].
Defined.



(** * Further properties of the module *)

(** ** The inherited [apply] beyond the registered appliers *)

(** X1: an exception raised by the context, by [cube.measure] or by
    [column], comes out of the inherited [apply] and of the call entry
    point as it is, whatever the class and the flag. *)
Theorem collaborator_errors_propagate (f : AggregateFunction) (agg : Aggregate)
    (ctx : Context) (ref : string) (e : exn) (coalesce : bool) :
  cls f ≠ C_GenerativeFunction →
  aggregate_measure agg = Some ref → ref ≠ "" →
  (cube_measure ctx ref = Raise e ∨
   ∃ m, cube_measure ctx ref = Ok m ∧ column ctx m = Raise e) →
  apply f (Some agg) (Some ctx) coalesce = Raise e ∧
  __call__ f (Some agg) (Some ctx) coalesce = Raise e.
Proof.
  intros Hcls Hagg Hne Hfail.
  assert (apply f (Some agg) (Some ctx) coalesce = Raise e) as Happly.
  { rewrite apply_inherited by done. unfold AggregateFunction_apply.
    rewrite Hagg, measure_truth_Some by done.
    destruct Hfail as [-> | (m & -> & Hcol)]; [done |].
    simpl. by rewrite Hcol. }
  split; [done | by apply call_propagates].
Qed.

Lemma collaborator_errors_propagate_witness :
  apply (ValueCoalescingFunction "avg" avg [] [])
        (Some total_revenue) (Some unknown_measure_context) true =
    Raise (Exn CollaboratorError "unknown measure revenue") ∧
  __call__ (SummaryCoalescingFunction "sum" sql_functions_sum [] [])
           (Some total_revenue) (Some no_column_context) false =
    Raise (Exn CollaboratorError "no column for revenue").
Proof.
  split.
  - refine (proj1 (collaborator_errors_propagate
                     (ValueCoalescingFunction "avg" avg [] [])
                     total_revenue unknown_measure_context "revenue"
                     _ true _ _ _ _));
      [simpl; discriminate | reflexivity | discriminate | left; reflexivity].
  - refine (proj2 (collaborator_errors_propagate
                     (SummaryCoalescingFunction "sum" sql_functions_sum [] [])
                     total_revenue no_column_context "revenue"
                     _ false _ _ _ _));
      [simpl; discriminate | reflexivity | discriminate
      | right; exists (MkMeasure "revenue"); split; reflexivity].
Defined.

(** X2: an empty measure reference counts as no measure.  The inherited
    [apply] raises the same [ModelError] for it as for [None], without
    consulting the context. *)
Theorem empty_measure_reference_is_absent (f : AggregateFunction)
    (agg : Aggregate) (ctx : Context) (coalesce : bool) :
  cls f ≠ C_GenerativeFunction →
  aggregate_measure agg = Some "" →
  apply f (Some agg) (Some ctx) coalesce =
    Raise (Exn ModelError
             ("No measure specified for aggregate " +:+ aggregate_str agg +:+
              ", required for aggregate function " +:+ name f)).
Proof.
  intros Hcls Hagg. rewrite apply_inherited by done.
  unfold AggregateFunction_apply. by rewrite Hagg.
Qed.

Lemma empty_measure_reference_is_absent_witness :
  apply (ValueCoalescingFunction "min" sql_functions_min [] [])
        (Some blank_measure) (Some sample_context) false =
    Raise (Exn ModelError
             "No measure specified for aggregate blank, required for aggregate function min").
Proof.
  refine (empty_measure_reference_is_absent
            (ValueCoalescingFunction "min" sql_functions_min [] [])
            blank_measure sample_context false _ _);
    [simpl; discriminate | reflexivity].
Defined.

(** X3: when coalescing is not requested, or the applier is of the base
    class whose two hooks return their argument, the inherited [apply]
    returns its function called on the raw resolved column followed by
    the applier's stored positional and keyword arguments. *)
Theorem apply_on_raw_column (f : AggregateFunction) (agg : Aggregate)
    (ctx : Context) (ref : string) (m : Measure) (col : expr) (coalesce : bool) :
  coalesce = false ∨ cls f = C_AggregateFunction →
  aggregate_measure agg = Some ref → ref ≠ "" →
  cube_measure ctx ref = Ok m → column ctx m = Ok col →
  cls f ≠ C_GenerativeFunction →
  apply f (Some agg) (Some ctx) coalesce =
    pycall (function f) (col :: args f) (kwargs f).
Proof.
  intros Hraw Hagg Hne Hm Hcol Hcls. rewrite apply_inherited by done.
  rewrite (AggregateFunction_apply_resolved agg ctx ref m col) by done.
  destruct Hraw as [-> | Hbase]; simpl.
  - by destruct (pycall (function f) _ (kwargs f)).
  - unfold coalesce_value, coalesce_aggregate. rewrite Hbase.
    destruct coalesce; simpl; by destruct (pycall (function f) _ (kwargs f)).
Qed.

Lemma apply_on_raw_column_witness :
  apply plain_with_extras (Some min_price) (Some sample_context) true =
    Ok (ECall sql_functions_max [EColumn "price"; EInt 2] [("scale", EInt 3)]).
Proof.
  refine (apply_on_raw_column plain_with_extras min_price sample_context
            "price" (MkMeasure "price") (EColumn "price") true _ _ _ _ _ _);
    [right; reflexivity | reflexivity | discriminate | reflexivity
    | reflexivity | simpl; discriminate].
Defined.

(** X4: the inherited [apply] returns an expression only after it has
    found a context, an aggregate with a non-empty measure reference,
    the measure and its column.  Its function has then been called on
    [COALESCE(column, 0)] if the applier is a [ValueCoalescingFunction]
    asked to coalesce and on the raw column in every other case, each
    time followed by the stored arguments; and unless the applier is a
    [SummaryCoalescingFunction] asked to coalesce, what [apply] returns
    is exactly what the function returned. *)
Theorem apply_success_inversion (f : AggregateFunction)
    (aggregate : option Aggregate) (context : option Context)
    (coalesce : bool) (e : expr) :
  cls f ≠ C_GenerativeFunction →
  apply f aggregate context coalesce = Ok e →
  ∃ agg ctx ref m col e0,
    aggregate = Some agg ∧ context = Some ctx ∧
    aggregate_measure agg = Some ref ∧ ref ≠ "" ∧
    cube_measure ctx ref = Ok m ∧ column ctx m = Ok col ∧
    pycall (function f)
           (match coalesce, cls f with
            | true, C_ValueCoalescingFunction => COALESCE0 col
            | _, _ => col
            end :: args f) (kwargs f) = Ok e0 ∧
    (coalesce = false ∨ cls f ≠ C_SummaryCoalescingFunction → e = e0).
Proof.
  intros Hcls. rewrite apply_inherited by done.
  unfold AggregateFunction_apply.
  destruct context as [ctx |]; [| done].
  destruct aggregate as [agg |]; [| done].
  destruct (aggregate_measure agg) as [ref |] eqn:Hagg; [| done].
  destruct ref as [| a ref]; [done |]. simpl.
  destruct (cube_measure ctx _) as [m |] eqn:Hm; [| done]. simpl.
  destruct (column ctx m) as [col |] eqn:Hcol; [| done]. simpl.
  intros Hresult.
  unfold coalesce_value, coalesce_aggregate in Hresult.
  destruct coalesce, (cls f) eqn:Hc; simpl in Hresult; try done;
    match type of Hresult with
    | context [pycall ?g ?a ?k] =>
        destruct (pycall g a k) as [e' |] eqn:Hcall; simpl in Hresult;
        [injection Hresult as -> | discriminate Hresult]
    end;
    exists agg, ctx, (String a ref), m, col, e;
    repeat (split; [done |]); done.
Qed.

Lemma apply_success_inversion_witness :
  ∃ agg ctx ref m col e0,
    Some min_price = Some agg ∧ Some sample_context = Some ctx ∧
    aggregate_measure agg = Some ref ∧ ref ≠ "" ∧
    cube_measure ctx ref = Ok m ∧ column ctx m = Ok col ∧
    pycall sql_functions_min [COALESCE0 col] [] = Ok e0 ∧
    (true = false ∨ C_ValueCoalescingFunction ≠ C_SummaryCoalescingFunction →
     ECall sql_functions_min [COALESCE0 (EColumn "price")] [] = e0).
Proof.
  refine (apply_success_inversion
            (ValueCoalescingFunction "min" sql_functions_min [] [])
            (Some min_price) (Some sample_context) true _ _ _);
    [simpl; discriminate | reflexivity].
Defined.

(** ** The call entry point, in full *)

(** X5: the call entry point returns an expression exactly when there
    is an aggregate and [apply] returns one; the expression is then the
    result of [apply] under a label that is the aggregate's name, so
    the outermost node of whatever a call returns is that label. *)
Theorem call_succeeds_iff (f : AggregateFunction) (aggregate : option Aggregate)
    (context : option Context) (coalesce : bool) (e : expr) :
  __call__ f aggregate context coalesce = Ok e ↔
  ∃ agg e0, aggregate = Some agg ∧
            apply f aggregate context coalesce = Ok e0 ∧
            e = ELabel e0 (aggregate_name agg).
Proof.
  unfold __call__. split.
  - destruct (apply f aggregate context coalesce) as [e0 |]; [| done]. simpl.
    destruct aggregate as [agg |]; [| done].
    intros [= <-]. by exists agg, e0.
  - intros (agg & e0 & -> & -> & ->). done.
Qed.

Lemma call_succeeds_iff_witness :
  ∃ agg e0, Some total_revenue = Some agg ∧
    apply (ValueCoalescingFunction "identity" lambda_c_c [] [])
          (Some total_revenue) (Some sample_context) false = Ok e0 ∧
    ELabel (EColumn "revenue") "total_revenue" = ELabel e0 (aggregate_name agg).
Proof.
  refine (proj1 (call_succeeds_iff
                   (ValueCoalescingFunction "identity" lambda_c_c [] [])
                   (Some total_revenue) (Some sample_context) false _) _).
  reflexivity.
Defined.

(** X6: the call entry point fails in two ways only: with the very
    exception [apply] raised, or, when [apply] returned but there is no
    aggregate to take the name from, with [AttributeError]. *)
Theorem call_fails_iff (f : AggregateFunction) (aggregate : option Aggregate)
    (context : option Context) (coalesce : bool) (e : exn) :
  __call__ f aggregate context coalesce = Raise e ↔
  apply f aggregate context coalesce = Raise e ∨
  (aggregate = None ∧ succeeds (apply f aggregate context coalesce) ∧
   e = Exn AttributeError "'NoneType' object has no attribute 'name'").
Proof.
  unfold __call__. split.
  - destruct (apply f aggregate context coalesce) as [e0 |]; simpl.
    + destruct aggregate as [agg |]; [done |].
      intros [= <-]. right. split; [done |]. split; [by exists e0 | done].
    + intros [= <-]. by left.
  - intros [-> | (-> & [e0 ->] & ->)]; done.
Qed.

Lemma call_fails_iff_witness :
  __call__ (GenerativeFunction "count" sql_functions_count [EInt 1] [])
           None None false =
    Raise (Exn AttributeError "'NoneType' object has no attribute 'name'").
Proof.
  refine (proj2 (call_fails_iff
                   (GenerativeFunction "count" sql_functions_count [EInt 1] [])
                   None None false _) _).
  right. split; [reflexivity |]. split; [| reflexivity].
  eexists. reflexivity.
Defined.

(** X7: each of the nine registered appliers returns an expression
    whenever there is a context that resolves the aggregate's measure
    to a column, for either value of the flag, and the call entry point
    then returns that expression labelled with the aggregate's name. *)
Theorem registered_appliers_succeed (n : string) (f : AggregateFunction)
    (agg : Aggregate) (ctx : Context) (ref : string) (m : Measure)
    (col : expr) (coalesce : bool) :
  registered n f →
  aggregate_measure agg = Some ref → ref ≠ "" →
  cube_measure ctx ref = Ok m → column ctx m = Ok col →
  ∃ e, apply f (Some agg) (Some ctx) coalesce = Ok e ∧
       __call__ f (Some agg) (Some ctx) coalesce =
         Ok (ELabel e (aggregate_name agg)).
Proof.
  intros [Hin _]%registered_in_functions Hagg Hne Hm Hcol.
  assert (∃ e, apply f (Some agg) (Some ctx) coalesce = Ok e) as [e He].
  { unfold _functions in Hin.
    repeat (apply elem_of_cons in Hin as [-> | Hin]);
      [ .. | by apply elem_of_nil in Hin];
      try (rewrite apply_inherited by done;
           rewrite (AggregateFunction_apply_resolved agg ctx ref m col) by done;
           destruct coalesce; by eexists).
    by eexists. }
  exists e. split; [done |]. unfold __call__. by rewrite He.
Qed.

Lemma registered_appliers_succeed_witness :
  ∃ e, apply (SummaryCoalescingFunction "count_nonempty" sql_functions_count [] [])
             (Some min_price) (Some sample_context) false = Ok e ∧
       __call__ (SummaryCoalescingFunction "count_nonempty" sql_functions_count [] [])
                (Some min_price) (Some sample_context) false =
         Ok (ELabel e "min_price").
Proof.
  refine (registered_appliers_succeed "count_nonempty" _ min_price
            sample_context "price" (MkMeasure "price") (EColumn "price")
            false _ _ _ _ _);
    [vm_compute; reflexivity | reflexivity | discriminate
    | reflexivity | reflexivity].
Defined.

(** ** The dictionary, whatever it holds *)

(** X8: registration round trip.  The names of the literal appliers are
    pairwise distinct, so none overwrites another: in every dictionary
    the process can hold, looking up the name of an applier of
    [_functions] returns that very applier and leaves the filled
    dictionary behind. *)
Theorem registration_round_trip (d : gmap string AggregateFunction)
    (f : AggregateFunction) :
  reachable d → f ∈ _functions →
  NoDup (name <$> _functions) ∧
  get_aggregate_function (name f) d = (Ok f, populated).
Proof.
  intros Hd%create_reachable Hin. split.
  - apply (bool_decide_unpack (NoDup (name <$> _functions))).
    vm_compute. exact I.
  - unfold get_aggregate_function. rewrite Hd.
    assert (populated !! name f = Some f) as ->; [| done].
    unfold _functions in Hin.
    repeat (apply elem_of_cons in Hin as [-> | Hin]);
      [vm_compute; reflexivity .. | by apply elem_of_nil in Hin].
Qed.

Lemma registration_round_trip_witness :
  get_aggregate_function "variance" populated =
    (Ok (ValueCoalescingFunction "variance" variance [] []), populated).
Proof.
  refine (proj2 (registration_round_trip populated
                   (ValueCoalescingFunction "variance" variance [] []) _ _)).
  - exists [ListAvailable]. vm_compute. reflexivity.
  - unfold _functions. do 6 apply list_elem_of_further. apply list_elem_of_here.
Defined.

(** X9: listing and lookup agree on any dictionary, reachable or not:
    a name is in the listing exactly when looking it up returns an
    applier, and both calls leave the same dictionary behind. *)
Theorem listing_agrees_with_lookup (d : gmap string AggregateFunction)
    (n : string) :
  (n ∈ (available_aggregate_functions d).1 ↔
   succeeds (get_aggregate_function n d).1) ∧
  (available_aggregate_functions d).2 = (get_aggregate_function n d).2.
Proof.
  unfold available_aggregate_functions, get_aggregate_function; simpl.
  split; [| done]. rewrite elem_of_dom.
  destruct (_create_function_dict d !! n) as [f |]; split.
  - intros _. by exists f.
  - by intros _.
  - by intros [f Hf].
  - by intros [f Hf].
Qed.

Lemma listing_agrees_with_lookup_witness :
  "identity" ∈ (available_aggregate_functions _function_dict).1.
Proof.
  apply (proj1 (listing_agrees_with_lookup _function_dict "identity")).
  eexists. vm_compute. reflexivity.
Defined.

(** X10: repeating a call, on any dictionary, gives the same response
    and the same dictionary as the first time; and after one call of
    either kind no further call of either kind changes the dictionary. *)
Theorem repeated_call_is_stable (d : gmap string AggregateFunction)
    (rq rq' : request) :
  step (step d rq).2 rq = step d rq ∧
  (step (step d rq).2 rq').2 = (step d rq).2.
Proof.
  rewrite !step_state. split; [| apply create_idempotent].
  destruct rq; unfold step, get_aggregate_function,
    available_aggregate_functions; by rewrite create_idempotent.
Qed.

(** X11: the guard of [_create_function_dict] tests emptiness, not a
    flag: a dictionary that already holds any entry is never filled.
    Both public functions answer from it as it is and leave it as it
    is, so a built-in name missing from it raises [KeyError]. *)
Theorem nonempty_dictionary_is_left_alone (d : gmap string AggregateFunction)
    (n : string) :
  d ≠ ∅ →
  get_aggregate_function n d =
    (match d !! n with
     | Some func => Ok func
     | None => Raise (Exn KeyError n)
     end, d) ∧
  available_aggregate_functions d = (dom d, d).
Proof.
  intros Hd.
  assert (_create_function_dict d = d) as Hcreate.
  { unfold _create_function_dict. rewrite bool_decide_eq_false_2; [done |].
    by rewrite map_size_empty_iff. }
  unfold get_aggregate_function, available_aggregate_functions.
  by rewrite Hcreate.
Qed.

Lemma nonempty_dictionary_is_left_alone_witness :
  get_aggregate_function "sum" foreign_dict =
    (Raise (Exn KeyError "sum"), foreign_dict).
Proof.
  refine (proj1 (nonempty_dictionary_is_left_alone foreign_dict "sum" _)).
  intros Hempty. apply (f_equal (λ d, d !! "plain")) in Hempty.
  vm_compute in Hempty. discriminate Hempty.
Defined.

(** X12: laziness cannot be observed.  In any two dictionaries the
    process can hold, filled yet or not, a lookup of the same name
    returns the same applier or raises the same error, the listing is
    the same set, and the dictionary afterwards is the same. *)
Theorem answers_do_not_depend_on_history (d1 d2 : gmap string AggregateFunction)
    (rq : request) :
  reachable d1 → reachable d2 → step d1 rq = step d2 rq.
Proof.
  intros H1%create_reachable H2%create_reachable.
  destruct rq; unfold step, get_aggregate_function,
    available_aggregate_functions; by rewrite H1, H2.
Qed.

Lemma answers_do_not_depend_on_history_witness :
  step _function_dict (Get "avg") = step populated (Get "avg").
Proof.
  apply answers_do_not_depend_on_history.
  - exists []. reflexivity.
  - exists [Get "nonexistent"]. vm_compute. reflexivity.
Defined.
